(** * Authentication module of the gateway server

    A shallow embedding of the authentication source file (the OIDC
    verifier, the passport session hooks and the [/oidc-callback]
    handler), of the command line ([getArguments]) and of the
    configuration [Main] derives from it, followed by the properties of
    the specification that are about them and by further properties read
    off the code.

    Conventions of the embedding
    - JavaScript strings are [string]; an absent value ([undefined], or
      [null] for [url.parse]) is [None].
    - The two tables touched by the module are lists of rows in storage
      order; a repository call is a function of the table as it is when the
      query runs.
    - Library calls keep the names they have in the source ([findOne],
      [findOneOrFail], [save], [url.parse] as [url_parse]). *)

From Stdlib Require Import String Ascii List Bool Arith DecimalString.
Import ListNotations.
Open Scope string_scope.

(** ** JavaScript values that reach the [isAdmin] field *)

Module Js.

(** The expression
    [existingUser?.isAdmin || (adminSub && profile.sub === adminSub)]
    can evaluate to [undefined], to a string or to a boolean. *)
Inductive Value : Type :=
| Undefined
| Str (s : string)
| Boolean (b : bool).

(** ToBoolean. *)
Definition truthy (v : Value) : bool :=
  match v with
  | Undefined => false
  | Str s => negb (s =? "")
  | Boolean b => b
  end.

(** [a || b] *)
Definition or (a b : Value) : Value := if truthy a then a else b.

(** [a && b] *)
Definition and (a b : Value) : Value := if truthy a then b else a.

(** An optional string ([adminSub?: string]) as a value. *)
Definition of_string (o : option string) : Value :=
  match o with
  | None => Undefined
  | Some s => Str s
  end.

(** An optional boolean property as a value. *)
Definition of_bool (o : option bool) : Value :=
  match o with
  | None => Undefined
  | Some b => Boolean b
  end.

(** [s.startsWith('/')] *)
Definition startsWith (s p : string) : bool := String.prefix p s.

End Js.

(** ** Entities *)

Module Entities.

(** A row of the [User] table. *)
Record User : Type := mkUser {
  id : string;
  name : string;
  email : string;
  profileImage : string;
  isAdmin : bool
}.

(** The columns of [User], as named in a [select] option. *)
Inductive Column : Type :=
| ColId | ColName | ColEmail | ColProfileImage | ColIsAdmin.

Definition Column_eqb (a b : Column) : bool :=
  match a, b with
  | ColId, ColId | ColName, ColName | ColEmail, ColEmail
  | ColProfileImage, ColProfileImage | ColIsAdmin, ColIsAdmin => true
  | _, _ => false
  end.

(** A [User] entity hydrated from a query: the properties of the columns
    that were not selected stay [undefined]. *)
Record LoadedUser : Type := mkLoadedUser {
  l_id : option string;
  l_name : option string;
  l_email : option string;
  l_profileImage : option string;
  l_isAdmin : option bool
}.

(** The object literal built by the verifier ([{ id, name, email,
    profileImage, isAdmin } as User]); its [isAdmin] is whatever the
    JavaScript expression evaluates to. *)
Record UserObject : Type := mkUserObject {
  o_id : string;
  o_name : string;
  o_email : string;
  o_profileImage : string;
  o_isAdmin : Js.Value
}.

(** A row of the [Site] table with its [editors] relation loaded; the
    property is optional in the source ([site.editors?.find]). *)
Record Site : Type := mkSite {
  domain : string;
  editors : option (list User)
}.

End Entities.

Import Entities.

(** ** The repository calls used by the module *)

Module Repository.

Definition hydrate (select : list Column) (u : User) : LoadedUser :=
  let has c := existsb (Column_eqb c) select in
  {| l_id := if has ColId then Some (id u) else None;
     l_name := if has ColName then Some (name u) else None;
     l_email := if has ColEmail then Some (email u) else None;
     l_profileImage :=
       if has ColProfileImage then Some (profileImage u) else None;
     l_isAdmin := if has ColIsAdmin then Some (isAdmin u) else None |}.

(** [getRepository(User).findOne({ where: { email }, select })]: the first
    row with that email, hydrated with the selected columns only. *)
Definition findOne_by_email
    (users : list User) (where_email : string) (select : list Column)
  : option LoadedUser :=
  option_map (hydrate select)
             (find (fun u => email u =? where_email) users).

(** [getRepository(User).findOne(id)], all columns. *)
Definition findOne_by_id (users : list User) (userId : string)
  : option User :=
  find (fun u => id u =? userId) users.

Inductive QueryError : Type :=
| EntityNotFound
| UniqueConstraintFailed.

(** [getRepository(User).findOneOrFail(userId)] *)
Definition findOneOrFail (users : list User) (userId : string)
  : User + QueryError :=
  match findOne_by_id users userId with
  | Some u => inl u
  | None => inr EntityNotFound
  end.

(** The boolean written to the [isAdmin] column for a defined value. *)
Definition column_of_value (v : Js.Value) (previous : bool) : bool :=
  match v with
  | Js.Undefined => previous
  | _ => Js.truthy v
  end.

Definition merge (old : User) (u : UserObject) : User :=
  {| id := id old;
     name := o_name u;
     email := o_email u;
     profileImage := o_profileImage u;
     isAdmin := column_of_value (o_isAdmin u) (isAdmin old) |}.

Definition fresh_row (u : UserObject) : User :=
  {| id := o_id u;
     name := o_name u;
     email := o_email u;
     profileImage := o_profileImage u;
     isAdmin := column_of_value (o_isAdmin u) false |}.

(** Modelled from the spec: the [User] entity declaration is not part of
    the authentication file; the store enforces that an email belongs to
    at most one user (sections 3 and 6). A write that would give the
    email of another row to this one is rejected. *)
Definition violates_unique_email (users : list User) (u : UserObject)
  : bool :=
  existsb (fun r => (email r =? o_email u) && negb (id r =? o_id u)) users.

(** [getRepository(User).save(user)]: insert-or-update by primary key.
    On update a property that is [undefined] leaves its column as it is;
    on insert the column takes its default ([false], section 4.2). *)
Definition save (users : list User) (u : UserObject)
  : list User + QueryError :=
  if violates_unique_email users u then inr UniqueConstraintFailed
  else
    match findOne_by_id users (o_id u) with
    | Some _ =>
        inl (map (fun r => if id r =? o_id u then merge r u else r) users)
    | None => inl (users ++ [fresh_row u])%list
    end.

(** [getRepository(Site).findOne({ where: { domain: host },
    relations: ['editors'] })]; a [null] host is compared with
    [IS NULL] and no row has a null domain. *)
Definition findOne_by_domain (sites : list Site) (host : option string)
  : option Site :=
  match host with
  | None => None
  | Some h => find (fun s => domain s =? h) sites
  end.

(** The invariant of section 3: at most one user per email address. *)
Definition emails_unique (users : list User) : Prop :=
  NoDup (map email users).

End Repository.

Import Repository.

(** ** getAuthStrategy: the verifier *)

Module Verifier.

(** The provider's userinfo response, as far as the verifier reads it.
    [email_verified] and [picture] are tested for absence by the source
    and are optional here. *)
Record UserinfoResponse : Type := mkProfile {
  sub : string;
  p_name : string;
  p_email : string;
  email_verified : option bool;
  picture : option string
}.

(** [new Error(message)] *)
Record Error : Type := mkError { message : string }.

Definition EmailNotVerified : Error :=
  mkError "OIDC: the user's email address is not verified.".

Definition EmailConflict : Error :=
  mkError "OIDC: the user's email address is already in use.".

(** The arguments the verifier passes to [done]. *)
Inductive Done : Type :=
| DoneError (e : Error)
| DoneUser (user : UserObject).

(** What one run of the verifier does: the call of [done], and the
    argument of the [save] it started, if it started one. The source
    does not await that [save]: [done] is called right after the call,
    and the write settles later. *)
Record Run : Type := mkRun {
  done : Done;
  started_save : option UserObject
}.

(** [adminSub && profile.sub === adminSub] *)
Definition bootstrap_match
    (adminSub : option string) (profile : UserinfoResponse) : Js.Value :=
  Js.and (Js.of_string adminSub)
         (match adminSub with
          | Some a => Js.Boolean (sub profile =? a)
          | None => Js.Boolean false
          end).

(** The object literal [user] of the verifier. *)
Definition synthesize
    (adminSub : option string) (profile : UserinfoResponse)
    (existingUser : option LoadedUser) : UserObject :=
  {| o_id := sub profile;
     o_name := p_name profile;
     o_email := p_email profile;
     o_profileImage :=
       match picture profile with
       | Some p => if p =? "" then "" else p
       | None => ""
       end;
     o_isAdmin :=
       Js.or
         (match existingUser with
          | Some e => Js.of_bool (l_isAdmin e)
          | None => Js.Undefined
          end)
         (bootstrap_match adminSub profile) |}.

(** [existingUser && existingUser.id !== profile.sub] *)
Definition other_identity
    (existingUser : option LoadedUser) (profile : UserinfoResponse)
  : bool :=
  match existingUser with
  | None => false
  | Some e =>
      match l_id e with
      | Some i => negb (i =? sub profile)
      | None => true
      end
  end.

Definition verifier
    (adminSub : option string) (profile : UserinfoResponse)
    (users : list User) : Run :=
  if negb (Js.truthy (Js.of_bool (email_verified profile))) then
    {| done := DoneError EmailNotVerified; started_save := None |}
  else
    let existingUser :=
      findOne_by_email users (p_email profile) [ColId] in
    if other_identity existingUser profile then
      {| done := DoneError EmailConflict; started_save := None |}
    else
      let user := synthesize adminSub profile existingUser in
      {| done := DoneUser user; started_save := Some user |}.

(** The [save] started by a run settles against the table as it is then;
    a rejected write leaves the table as it was (the rejection of the
    promise is observed by nobody). *)
Definition settle (r : Run) (users : list User) : list User :=
  match started_save r with
  | None => users
  | Some u =>
      match save users u with
      | inl users' => users'
      | inr _ => users
      end
  end.

(** One login with no other request in between: what [done] receives and
    the table once the write has settled. *)
Definition reconcile
    (adminSub : option string) (profile : UserinfoResponse)
    (users : list User) : Done * list User :=
  let r := verifier adminSub profile users in
  (done r, settle r users).

End Verifier.

Import Verifier.

(** ** setupExpressAuth: the session hooks *)

Module Session.

(** [passport.serializeUser((user, done) => done(null, user.id))]: the
    value kept in the session. *)
Definition serializeUser (user : UserObject) : string := o_id user.

(** [passport.deserializeUser]: [done(null, user)] with the row that
    [findOneOrFail] returns, [done(error)] with what it throws. *)
Definition deserializeUser (users : list User) (userId : string)
  : User + QueryError :=
  match findOneOrFail users userId with
  | inl user => inl user
  | inr error => inr error
  end.

End Session.

Import Session.

(** ** setupExpressAuth: the [/oidc-callback] handler *)

Module Callback.

(** The part of the object returned by [url.parse] that the handler
    reads. *)
Record Url : Type := mkUrl { host : option string }.

(** [url.parse] returns a [Url], or throws: Node documents a URIError
    when the user-information part of the string cannot be decoded. *)
Inductive Parse : Type :=
| Parsed (parsedUrl : Url)
| ThrowsURIError.

(** How the handler ends: it calls [res.redirect], or the promise of the
    async handler is rejected and no response is sent. *)
Inductive Outcome : Type :=
| Redirect (location : string)
| Raised.

(** The outcome together with the hosts looked up in the [Site] table,
    in order. *)
Record Handled : Type := mkHandled {
  outcome : Outcome;
  site_queries : list (option string)
}.

(** [site.editors?.find((user) => user.id === req.user.id)] is truthy *)
Definition finds_editor (site : Site) (userId : string) : bool :=
  match editors site with
  | None => false
  | Some es =>
      match find (fun user => id user =? userId) es with
      | Some _ => true
      | None => false
      end
  end.

(** The user is in the editor set of the site, as a proposition. *)
Definition is_editor_of (site : Site) (userId : string) : Prop :=
  exists es e, editors site = Some es /\ In e es /\ id e = userId.

(** [req.query.state || '/'] *)
Definition state_or_root (state : option string) : string :=
  match state with
  | Some s => if s =? "" then "/" else s
  | None => "/"
  end.

(** The guard of the handler: [redirectUrl && !redirectUrl.startsWith('/')] *)
Definition needs_site_check (redirectUrl : string) : bool :=
  negb (redirectUrl =? "") && negb (Js.startsWith redirectUrl "/").

Section Handler.

Variable url_parse : string -> Parse.

Definition oidc_callback
    (sites : list Site) (req_user : option UserObject)
    (state : option string) : Handled :=
  let redirectUrl := state_or_root state in
  if needs_site_check redirectUrl then
    match url_parse redirectUrl with
    | ThrowsURIError => {| outcome := Raised; site_queries := [] |}
    | Parsed parsedUrl =>
        let site := findOne_by_domain sites (host parsedUrl) in
        let refused :=
          match req_user with
          | None => true
          | Some user =>
              match site with
              | None => true
              | Some s => negb (finds_editor s (o_id user))
              end
          end in
        {| outcome := Redirect (if refused then "/" else redirectUrl);
           site_queries := [host parsedUrl] |}
    end
  else {| outcome := Redirect redirectUrl; site_queries := [] |}.

End Handler.

(** *** An instance of [url.parse] for closed examples

    It covers references of the shape [scheme://[userinfo@]host...]:
    the host runs to the first [/], [?] or [#]; a reference without
    [://] has a [null] host (also one that begins with [//], since the
    handler does not ask for slashes to denote a host); a percent sign
    of the user information that is not followed by two hexadecimal
    digits makes [decodeURIComponent] throw. *)

Fixpoint until_delimiter (s : string) : string :=
  match s with
  | EmptyString => ""
  | String c rest =>
      if existsb (Ascii.eqb c) ["/"; "?"; "#"]%char then ""
      else String c (until_delimiter rest)
  end.

Definition is_hex (c : Ascii.ascii) : bool :=
  let n := Ascii.nat_of_ascii c in
  (((48 <=? n) && (n <=? 57)) || ((65 <=? n) && (n <=? 70))
   || ((97 <=? n) && (n <=? 102)))%nat.

Fixpoint malformed_escape (s : string) : bool :=
  match s with
  | EmptyString => false
  | String c rest =>
      if Ascii.eqb c "%"%char then
        match rest with
        | String a (String b _) =>
            negb (is_hex a && is_hex b) || malformed_escape rest
        | _ => true
        end
      else malformed_escape rest
  end.

Definition url_parse_sample (urlString : string) : Parse :=
  match index 0 "://" urlString with
  | None => Parsed {| host := None |}
  | Some n =>
      let authority :=
        until_delimiter
          (substring (n + 3) (String.length urlString) urlString) in
      match index 0 "@" authority with
      | None => Parsed {| host := Some authority |}
      | Some m =>
          if malformed_escape (substring 0 m authority)
          then ThrowsURIError
          else Parsed {| host :=
                 Some (substring (m + 1) (String.length authority)
                                 authority) |}
      end
  end.

End Callback.

Import Callback.

(** ** The specification's reading of a redirect target *)

Module Spec.

(** Section 4.4 separates targets that specify an origin from the
    others. Following the specification's words, a target specifies an
    origin when it names a host: after [scheme://], or after the two
    slashes of a protocol-relative reference. This definition is not
    taken from the source; it is what the handler's guard
    [needs_site_check] is compared with. *)
Definition named_host (target : string) : option string :=
  match target with
  | String "/" (String "/" rest) => Some (until_delimiter rest)
  | _ =>
      match index 0 "://" target with
      | Some n =>
          Some (until_delimiter
                  (substring (n + 3) (String.length target) target))
      | None => None
      end
  end.

(** The target names a host other than the gateway's. *)
Definition specifies_other_origin (gateway_host target : string) : bool :=
  match named_host target with
  | Some h => negb (h =? gateway_host)
  | None => false
  end.

(** A path-relative reference: one that names neither a scheme nor a
    host and does not begin with a slash (it is resolved against the
    path of the current page). *)
Definition path_relative (target : string) : bool :=
  negb (target =? "")
  && negb (Js.startsWith target "/")
  && match index 0 ":" target with Some _ => false | None => true end.

End Spec.

(** ** Data of the scenarios *)

Module Scenario.

(** The stored administrator of the reconciliation scenarios. *)
Definition ann : User :=
  {| id := "u1"; name := "Ann"; email := "a@x.com";
     profileImage := ""; isAdmin := true |}.

(** Ann as a concurrent first login stores her: not an administrator. *)
Definition ann_first : User :=
  {| id := "u1"; name := "Ann"; email := "a@x.com";
     profileImage := ""; isAdmin := false |}.

(** Ann logs in again: same subject, same verified email. *)
Definition ann_claims : UserinfoResponse :=
  {| sub := "u1"; p_name := "Ann"; p_email := "a@x.com";
     email_verified := Some true; picture := None |}.

(** Another provider identity with Ann's email. *)
Definition u2_claims : UserinfoResponse :=
  {| sub := "u2"; p_name := "Bo"; p_email := "a@x.com";
     email_verified := Some true; picture := None |}.

Definition u2_object : UserObject :=
  {| o_id := "u2"; o_name := "Bo"; o_email := "a@x.com";
     o_profileImage := ""; o_isAdmin := Js.Undefined |}.

(** Claims whose email the provider has not verified. *)
Definition unverified_claims : UserinfoResponse :=
  {| sub := "u3"; p_name := "Cy"; p_email := "c@x.com";
     email_verified := Some false; picture := None |}.

(** The bootstrap administrator of section 8. *)
Definition abc123_claims : UserinfoResponse :=
  {| sub := "abc123"; p_name := "Root"; p_email := "a@x.com";
     email_verified := Some true; picture := None |}.

(** A first login with a picture: a subject and an email not yet stored. *)
Definition cy_claims : UserinfoResponse :=
  {| sub := "u3"; p_name := "Cy"; p_email := "c@x.com";
     email_verified := Some true;
     picture := Some "https://img.example/cy.png" |}.



(** A tenant site edited by Ann only. *)
Definition blog : Site :=
  {| domain := "blog.example"; editors := Some [ann] |}.

(** The session users of the callback scenarios. *)
Definition ann_session : UserObject :=
  {| o_id := "u1"; o_name := "Ann"; o_email := "a@x.com";
     o_profileImage := ""; o_isAdmin := Js.Undefined |}.

Definition bo_session : UserObject := u2_object.

(** Host of the gateway with the default configuration. *)
Definition gateway_host : string := "localhost:3000".

End Scenario.

Import Scenario.

(** ** The primary key of the User table *)


(** ** getArguments: the command line *)

Module Cli.

(** The three [choices] of [dbType]. *)
Inductive DbType : Type := sqlite | mysql | postgres.

(** The options as yargs reads them from the command line, before the
    defaults of the option table are applied. [authServer] is required and
    [dbType] is one of its choices (yargs ends the process otherwise);
    numbers are natural numbers. *)
Record CommandLine : Type := mkCommandLine {
  given_port : option nat;
  given_hostingUrl : option string;
  given_dbType : option DbType;
  given_dbHost : option string;
  given_dbPort : option nat;
  given_dbUsername : option string;
  given_dbPassword : option string;
  given_dbDatabase : option string;
  given_authServer : string;
  given_authClientId : option string;
  given_authClientSecret : option string;
  given_authPkce : option bool;
  given_adminSub : option string
}.

(** The interface [Arguments]; the options without a default stay
    optional. *)
Record Arguments : Type := mkArguments {
  port : nat;
  hostingUrl : string;
  dbType : DbType;
  dbHost : option string;
  dbPort : option nat;
  dbUsername : option string;
  dbPassword : option string;
  dbDatabase : option string;
  authServer : string;
  authClientId : string;
  authClientSecret : option string;
  authPkce : option bool;
  adminSub : option string
}.

Definition defaultLocalhostUrl : string := "http://localhost".

(** The [default] of an option. *)
Definition or_default {A : Type} (default : A) (given : option A) : A :=
  match given with
  | Some v => v
  | None => default
  end.

(** [`${argv.port}`] for a natural number. *)
Definition number_to_string (n : nat) : string :=
  NilEmpty.string_of_uint (Nat.to_uint n).

Definition getArguments (cli : CommandLine) : Arguments :=
  let argv_port := or_default 3000 (given_port cli) in
  let argv_hostingUrl :=
    or_default defaultLocalhostUrl (given_hostingUrl cli) in
  {| port := argv_port;
     hostingUrl :=
       if argv_hostingUrl =? defaultLocalhostUrl
       then argv_hostingUrl ++ ":" ++ number_to_string argv_port
       else argv_hostingUrl;
     dbType := or_default sqlite (given_dbType cli);
     dbHost := given_dbHost cli;
     dbPort := given_dbPort cli;
     dbUsername := given_dbUsername cli;
     dbPassword := given_dbPassword cli;
     dbDatabase := given_dbDatabase cli;
     authServer := given_authServer cli;
     authClientId :=
       or_default "netlify-gateway-server" (given_authClientId cli);
     authClientSecret := given_authClientSecret cli;
     authPkce := given_authPkce cli;
     adminSub := given_adminSub cli |}.

End Cli.

(** ** Main, setupExpressAuth and getAuthStrategy: the configuration *)

Module Config.

(** The [database] option that [Main] passes to [createConnection]:
    [dbDatabase ?? (dbType === 'sqlite' ? 'db.sqlite' : 'git-gateway')]. *)
Definition database (a : Cli.Arguments) : string :=
  match Cli.dbDatabase a with
  | Some d => d
  | None =>
      match Cli.dbType a with
      | Cli.sqlite => "db.sqlite"
      | _ => "git-gateway"
      end
  end.

(** [AuthSetupOptions] *)
Record AuthSetupOptions : Type := mkAuthSetupOptions {
  setup_server : string;
  setup_clientId : string;
  setup_clientSecret : option string;
  setup_usePKCE : option bool;
  setup_hostingUrl : string;
  setup_adminSub : option string
}.

(** The options [Main] passes to [setupExpressAuth]. *)
Definition Main_auth_options (a : Cli.Arguments) : AuthSetupOptions :=
  {| setup_server := Cli.authServer a;
     setup_clientId := Cli.authClientId a;
     setup_clientSecret := Cli.authClientSecret a;
     setup_usePKCE := Cli.authPkce a;
     setup_hostingUrl := Cli.hostingUrl a;
     setup_adminSub := Cli.adminSub a |}.

(** [AuthStrategyOptions] *)
Record AuthStrategyOptions : Type := mkAuthStrategyOptions {
  server : string;
  clientId : string;
  clientSecret : option string;
  callbackUrl : string;
  usePKCE : option bool;
  logoutUrl : option string;
  strategy_adminSub : option string
}.

(** The options [setupExpressAuth] passes to [getAuthStrategy]. *)
Definition setup_strategy_options (o : AuthSetupOptions)
  : AuthStrategyOptions :=
  {| server := setup_server o;
     clientId := setup_clientId o;
     clientSecret := setup_clientSecret o;
     callbackUrl := setup_hostingUrl o ++ "/oidc-callback";
     usePKCE := setup_usePKCE o;
     logoutUrl := Some (setup_hostingUrl o);
     strategy_adminSub := setup_adminSub o |}.

(** The metadata [getAuthStrategy] gives to [new authIssuer.Client]. *)
Record ClientMetadata : Type := mkClientMetadata {
  client_id : string;
  client_secret : option string;
  redirect_uris : list string;
  post_logout_redirect_uris : option (list string);
  response_types : list string;
  token_endpoint_auth_method : string
}.

(** [strategyOptions], without the client. *)
Record StrategyOptions : Type := mkStrategyOptions {
  strategy_usePKCE : bool;
  redirect_uri : string;
  scope : string;
  response_type : string
}.

(** A string option in a condition: absent and empty are falsy. *)
Definition given (o : option string) : bool :=
  Js.truthy (Js.of_string o).

Definition client_metadata (o : AuthStrategyOptions) : ClientMetadata :=
  {| client_id := clientId o;
     client_secret := clientSecret o;
     redirect_uris := [callbackUrl o];
     post_logout_redirect_uris :=
       match logoutUrl o with
       | Some l => if given (Some l) then Some [l] else None
       | None => None
       end;
     response_types := ["code"];
     token_endpoint_auth_method :=
       if given (clientSecret o) then "client_secret_basic" else "none" |}.

Definition strategyOptions (o : AuthStrategyOptions) : StrategyOptions :=
  {| strategy_usePKCE := Cli.or_default false (usePKCE o);
     redirect_uri := callbackUrl o;
     scope := "openid profile email";
     response_type := "code" |}.

(** The options that reach [getAuthStrategy] when the gateway is started
    from a command line: [Main(getArguments())]. *)
Definition options_of (cli : Cli.CommandLine) : AuthStrategyOptions :=
  setup_strategy_options (Main_auth_options (Cli.getArguments cli)).

(** The verifier of a gateway started from a command line: [adminSub]
    travels from [getArguments] through [Main] and [setupExpressAuth] to
    [getAuthStrategy]. *)
Definition verifier_of (cli : Cli.CommandLine)
  : UserinfoResponse -> list User -> Run :=
  verifier
    (strategy_adminSub
       (setup_strategy_options (Main_auth_options (Cli.getArguments cli)))).

(** A command line that gives the provider and nothing else. *)
Definition bare (authServer : string) : Cli.CommandLine :=
  {| Cli.given_port := None; Cli.given_hostingUrl := None;
     Cli.given_dbType := None; Cli.given_dbHost := None;
     Cli.given_dbPort := None; Cli.given_dbUsername := None;
     Cli.given_dbPassword := None; Cli.given_dbDatabase := None;
     Cli.given_authServer := authServer; Cli.given_authClientId := None;
     Cli.given_authClientSecret := None; Cli.given_authPkce := None;
     Cli.given_adminSub := None |}.

End Config.

(** ** Facts about the repository *)

Section RepositoryFacts.

Lemma find_unique_email (users : list User) (u : User) :
  emails_unique users -> In u users ->
  find (fun r => email r =? email u) users = Some u.
Proof.
  unfold emails_unique.
  induction users as [|a l IH]; simpl; intros Hnd Hin; [contradiction|].
  inversion Hnd as [|? ? Hnotin Hnd']; subst.
  destruct Hin as [-> | Hin].
  - now rewrite String.eqb_refl.
  - destruct (email a =? email u) eqn:E.
    + apply String.eqb_eq in E. exfalso. apply Hnotin.
      rewrite E. now apply in_map.
    + now apply IH.
Qed.

Lemma find_absent {A : Type} (f : A -> bool) (l : list A) :
  (forall x, In x l -> f x = false) -> find f l = None.
Proof.
  induction l as [|a l IH]; simpl; intros H; [reflexivity|].
  rewrite (H a (or_introl eq_refl)). apply IH. intros x Hx.
  apply H. now right.
Qed.

Lemma findOne_by_domain_absent (sites : list Site) (h : option string) :
  (forall s, In s sites -> h <> Some (domain s)) ->
  findOne_by_domain sites h = None.
Proof.
  intros H. destruct h as [h|]; simpl; [|reflexivity].
  apply find_absent. intros s Hs.
  apply String.eqb_neq. intros E. apply (H s Hs). now rewrite E.
Qed.

Lemma findOne_by_domain_sound (sites : list Site) h site :
  findOne_by_domain sites h = Some site ->
  In site sites /\ h = Some (domain site).
Proof.
  destruct h as [h|]; simpl; [|discriminate].
  intros H. apply find_some in H as [Hin E].
  apply String.eqb_eq in E. now rewrite E.
Qed.

Lemma finds_editor_iff (site : Site) (userId : string) :
  finds_editor site userId = true <-> is_editor_of site userId.
Proof.
  unfold finds_editor, is_editor_of.
  destruct (editors site) as [es|].
  - destruct (find (fun user => id user =? userId) es) as [e|] eqn:F.
    + apply find_some in F as [Hin E]. apply String.eqb_eq in E.
      split; [intros _|reflexivity]. now exists es, e.
    + split; [discriminate|]. intros (es' & e & Hes & Hin & E).
      injection Hes as <-.
      pose proof (find_none _ _ F e Hin) as N. simpl in N.
      rewrite E, String.eqb_refl in N. discriminate.
  - split; [discriminate|]. now intros (es & e & Hes & _).
Qed.

(** The entity loaded by the verifier's query carries its [id] and
    nothing else: [select: ['id']]. *)
Lemma findOne_select_id (users : list User) (e : string) (l : LoadedUser) :
  findOne_by_email users e [ColId] = Some l ->
  l_isAdmin l = None /\
  exists u, In u users /\ email u = e /\ l_id l = Some (id u).
Proof.
  unfold findOne_by_email.
  destruct (find (fun u => email u =? e) users) as [u|] eqn:F;
    simpl; [|discriminate].
  intros [= <-]. split; [reflexivity|].
  apply find_some in F as [Hin E]. apply String.eqb_eq in E.
  now exists u.
Qed.

End RepositoryFacts.

(** ** Facts about the verifier *)

Section VerifierFacts.

Variable adminSub : option string.

(** Whatever the table holds, the administrator flag of the object the
    verifier builds is the bootstrap test alone: the stored flag is not
    among the selected columns. *)
Lemma verifier_isAdmin_ignores_table profile users user :
  done (verifier adminSub profile users) = DoneUser user ->
  o_isAdmin user = bootstrap_match adminSub profile.
Proof.
  unfold verifier.
  destruct (negb _); simpl; [discriminate|].
  destruct (findOne_by_email users (p_email profile) [ColId])
    as [l|] eqn:F.
  - destruct (other_identity (Some l) profile); simpl; [discriminate|].
    intros [= <-]. simpl.
    destruct (findOne_select_id _ _ _ F) as [-> _]. reflexivity.
  - simpl. intros [= <-]. reflexivity.
Qed.


(** [done] is called before the write settles: a run that started a
    [save] has already handed the same object to [done]. *)
Lemma verifier_done_before_save profile users user :
  started_save (verifier adminSub profile users) = Some user ->
  done (verifier adminSub profile users) = DoneUser user.
Proof.
  unfold verifier.
  destruct (negb _); simpl; [discriminate|].
  destruct (other_identity _ profile); simpl; [discriminate|].
  now intros [= <-].
Qed.

End VerifierFacts.

(** ** Identity reconciliation *)

(** C3. For every claims value whose email-verified flag is false, the
    verifier hands the EmailNotVerified error to [done] and starts no
    write: the User table is what it was, also when the run is observed
    against any later table. *)
Theorem C3_unverified_email_rejected
    (adminSub : option string) (profile : UserinfoResponse)
    (users : list User) :
  email_verified profile = Some false ->
  verifier adminSub profile users =
    {| done := DoneError EmailNotVerified; started_save := None |}
  /\ reconcile adminSub profile users = (DoneError EmailNotVerified, users)
  /\ forall later, settle (verifier adminSub profile users) later = later.
Proof.
  intros Hv.
  assert (R : verifier adminSub profile users =
              {| done := DoneError EmailNotVerified;
                 started_save := None |}).
  { unfold verifier. now rewrite Hv. }
  unfold reconcile. rewrite R. repeat split.
Qed.

Lemma C3_unverified_email_rejected_witness :
  reconcile None unverified_claims [ann] = (DoneError EmailNotVerified, [ann]).
Proof.
  exact (proj1 (proj2
    (C3_unverified_email_rejected None unverified_claims [ann] eq_refl))).
Defined.

(** C4. For every claims value with a verified email, if a stored User has
    the same email and an identifier other than the claims' subject, the
    verifier hands the EmailConflict error to [done] and starts no write:
    the User table is unchanged. The table satisfies the invariant of the
    data model (one user per email). *)
Theorem C4_email_conflict_rejected
    (adminSub : option string) (profile : UserinfoResponse)
    (users : list User) (u : User) :
  email_verified profile = Some true ->
  emails_unique users ->
  In u users -> email u = p_email profile -> id u <> sub profile ->
  verifier adminSub profile users =
    {| done := DoneError EmailConflict; started_save := None |}
  /\ reconcile adminSub profile users = (DoneError EmailConflict, users).
Proof.
  intros Hv Huniq Hin Hemail Hid.
  assert (R : verifier adminSub profile users =
              {| done := DoneError EmailConflict; started_save := None |}).
  { unfold verifier, findOne_by_email. rewrite Hv. simpl.
    rewrite <- Hemail, (find_unique_email users u Huniq Hin). simpl.
    apply String.eqb_neq in Hid. now rewrite Hid. }
  unfold reconcile. rewrite R. split; reflexivity.
Qed.

Lemma C4_email_conflict_rejected_witness :
  reconcile None u2_claims [ann] = (DoneError EmailConflict, [ann]).
Proof.
  refine (proj2 (C4_email_conflict_rejected None u2_claims [ann] ann
                   eq_refl _ (or_introl eq_refl) eq_refl _)).
  - unfold emails_unique. simpl. constructor; [|constructor].
    simpl. tauto.
  - simpl. discriminate.
Defined.

(** C2, at its failing input. Ann is stored as an administrator; the
    gateway is configured with another bootstrap subject; Ann logs in
    again with her own verified claims. The login succeeds, the object
    handed to [done] has [isAdmin = false], and the row read back by
    identifier afterwards is no longer an administrator. *)
Theorem C2_reconcile_clears_admin_flag :
  isAdmin ann = true
  /\ reconcile (Some "root") ann_claims [ann] =
       (DoneUser {| o_id := "u1"; o_name := "Ann"; o_email := "a@x.com";
                    o_profileImage := ""; o_isAdmin := Js.Boolean false |},
        [ {| id := "u1"; name := "Ann"; email := "a@x.com";
             profileImage := ""; isAdmin := false |} ])
  /\ option_map isAdmin
       (findOne_by_id (snd (reconcile (Some "root") ann_claims [ann])) "u1")
     = Some false.
Proof.
  repeat split.
Qed.

(** C7, at its failing input. The bootstrap administrator is [abc123];
    Ann, a stored administrator with another subject, logs in. The User
    handed to [done] copies identifier, name, email and image from the
    claims, but its administrator flag is false although the existing
    record was an administrator; the same holds for the persisted row. *)
Theorem C7_existing_admin_not_carried_over :
  isAdmin ann = true
  /\ reconcile (Some "abc123") ann_claims [ann] =
       (DoneUser {| o_id := "u1"; o_name := "Ann"; o_email := "a@x.com";
                    o_profileImage := ""; o_isAdmin := Js.Boolean false |},
        [ {| id := "u1"; name := "Ann"; email := "a@x.com";
             profileImage := ""; isAdmin := false |} ]).
Proof.
  split; reflexivity.
Qed.

(** The end-to-end scenario of section 8 for the bootstrap subject. *)
Lemma bootstrap_subject_becomes_admin :
  reconcile (Some "abc123") abc123_claims [] =
    (DoneUser {| o_id := "abc123"; o_name := "Root"; o_email := "a@x.com";
                 o_profileImage := ""; o_isAdmin := Js.Boolean true |},
     [ {| id := "abc123"; name := "Root"; email := "a@x.com";
          profileImage := ""; isAdmin := true |} ]).
Proof.
  reflexivity.
Qed.

(** C6, at its failing input. Two first logins claim [a@x.com]. The
    verifier for subject [u2] looks the email up in the empty table,
    builds its user, starts the [save] and calls [done] with the user.
    By the time the write runs, the other login has stored [u1] with that
    email: the store rejects the write. The table is left as it was, but
    the caller has received [u2] as the authenticated identity, and the
    identifier kept in the session resolves to no stored user. *)
Theorem C6_rejected_write_still_authenticates :
  verifier None u2_claims [] =
    {| done := DoneUser u2_object; started_save := Some u2_object |}
  /\ save [ann_first] u2_object = inr UniqueConstraintFailed
  /\ settle (verifier None u2_claims []) [ann_first] = [ann_first]
  /\ deserializeUser [ann_first] (serializeUser u2_object)
     = inr EntityNotFound.
Proof.
  repeat split.
Qed.

(** ** Sessions *)

Section SaveFacts.

Variable u : UserObject.

Lemma find_after_update (l : list User) :
  find (fun r => id r =? o_id u)
       (map (fun r => if id r =? o_id u then merge r u else r) l)
  = option_map (fun r => merge r u) (find (fun r => id r =? o_id u) l).
Proof.
  induction l as [|a l IH]; simpl; [reflexivity|].
  destruct (id a =? o_id u) eqn:E; simpl.
  - now rewrite E.
  - now rewrite E, IH.
Qed.

Lemma find_after_insert (l : list User) :
  find (fun r => id r =? o_id u) l = None ->
  find (fun r => id r =? o_id u) (l ++ [fresh_row u]) = Some (fresh_row u).
Proof.
  induction l as [|a l IH]; simpl.
  - intros _. now rewrite String.eqb_refl.
  - destruct (id a =? o_id u); [discriminate|exact IH].
Qed.

(** After a successful [save] the row found under the identifier holds
    the saved name, email and image. *)
Lemma save_then_find (users later : list User) :
  save users u = inl later ->
  exists row,
    findOne_by_id later (o_id u) = Some row
    /\ id row = o_id u /\ name row = o_name u
    /\ email row = o_email u /\ profileImage row = o_profileImage u.
Proof.
  unfold save, findOne_by_id.
  destruct (violates_unique_email users u); [discriminate|].
  destruct (find (fun r => id r =? o_id u) users) as [old|] eqn:F.
  - intros [= <-]. rewrite find_after_update, F. simpl.
    exists (merge old u). repeat split.
    apply find_some in F as [_ E]. now apply String.eqb_eq in E.
  - intros [= <-]. rewrite (find_after_insert users F).
    exists (fresh_row u). repeat split.
Qed.

End SaveFacts.

(** C8. The session keeps the identifier of the user and nothing else of
    the record: users with the same identifier serialize to the same
    value. Resolution reads the row stored under that identifier in the
    table as it is then: it returns that row, also right after the record
    was saved again with newer data, and it fails with EntityNotFound when
    no stored user has the identifier. *)
Theorem C8_session_keeps_id_and_refetches
    (users : list User) (user : UserObject) :
  serializeUser user = o_id user
  /\ (forall other, o_id other = o_id user ->
        serializeUser other = serializeUser user)
  /\ (forall row, findOne_by_id users (o_id user) = Some row ->
        deserializeUser users (serializeUser user) = inl row)
  /\ (forall newer later,
        o_id newer = o_id user -> save users newer = inl later ->
        exists row,
          deserializeUser later (serializeUser user) = inl row
          /\ name row = o_name newer /\ email row = o_email newer
          /\ profileImage row = o_profileImage newer)
  /\ ((forall row, In row users -> id row <> o_id user) ->
        deserializeUser users (serializeUser user) = inr EntityNotFound).
Proof.
  unfold serializeUser, deserializeUser, findOneOrFail.
  split; [reflexivity|]. split; [now intros other ->|].
  split; [now intros row ->|]. split.
  - intros newer later Hid Hsave.
    destruct (save_then_find newer users later Hsave)
      as (row & F & _ & Hn & He & Hp).
    rewrite <- Hid, F. now exists row.
  - intros Habs. unfold findOne_by_id. rewrite find_absent; [reflexivity|].
    intros x Hx. apply String.eqb_neq. now apply Habs.
Qed.

Lemma C8_session_keeps_id_and_refetches_witness :
  serializeUser ann_session = "u1"
  /\ deserializeUser [ann] (serializeUser ann_session) = inl ann
  /\ deserializeUser [] (serializeUser ann_session) = inr EntityNotFound.
Proof.
  pose proof (C8_session_keeps_id_and_refetches [ann] ann_session)
    as (S & _ & F & _ & _).
  pose proof (C8_session_keeps_id_and_refetches [] ann_session)
    as (_ & _ & _ & _ & N).
  split; [exact S|]. split.
  - exact (F ann eq_refl).
  - apply N. intros row [].
Defined.

(** ** The callback handler *)

(** C10. A state whose first character is a slash is redirected to
    unchanged, whatever follows the slash, whoever the user is and
    whatever the Site table holds; the parser is not called and no Site is
    looked up. The protocol-relative ["//host/path"] is such a state. *)
Theorem C10_leading_slash_redirected_unchanged
    (url_parse : string -> Parse) (sites : list Site)
    (req_user : option UserObject) (rest : string) :
  oidc_callback url_parse sites req_user (Some (String "/" rest)) =
    {| outcome := Redirect (String "/" rest); site_queries := [] |}
  /\ oidc_callback url_parse sites req_user (Some "//host/path") =
    {| outcome := Redirect "//host/path"; site_queries := [] |}.
Proof.
  split; [|reflexivity].
  unfold oidc_callback, needs_site_check, Js.startsWith. simpl.
  destruct rest; reflexivity.
Qed.

(** C1, at its failing input. The protocol-relative target
    ["//evil.example/x"] names the host [evil.example], which is not the
    gateway's; the Site table is empty, so no Site matches; yet the
    handler redirects the authenticated user to the target, not to the
    root path. The path for targets that do not begin with a slash looks
    the Site up ([unknown_site_redirects_to_root] below); this one is let
    through by the test for a leading slash. *)
Theorem C1_protocol_relative_leaves_gateway :
  Spec.specifies_other_origin gateway_host "//evil.example/x" = true
  /\ findOne_by_domain [] (Spec.named_host "//evil.example/x") = None
  /\ outcome (oidc_callback url_parse_sample [] (Some bo_session)
                            (Some "//evil.example/x"))
     = Redirect "//evil.example/x"
  /\ Redirect "//evil.example/x" <> Redirect "/".
Proof.
  repeat split. discriminate.
Qed.

(** The path the handler takes for an absolute URL. For every non-empty
    target that does not begin with a slash and that [url.parse] parses,
    if no Site's domain is the parsed host, the handler looks that host up
    and redirects to the root path, for every user (and when there is
    none). *)
Lemma unknown_site_redirects_to_root
    (url_parse : string -> Parse) (sites : list Site)
    (req_user : option UserObject) (target : string) (parsedUrl : Url) :
  needs_site_check target = true ->
  url_parse target = Parsed parsedUrl ->
  (forall s, In s sites -> host parsedUrl <> Some (domain s)) ->
  oidc_callback url_parse sites req_user (Some target) =
    {| outcome := Redirect "/"; site_queries := [host parsedUrl] |}.
Proof.
  intros Hguard Hparse Habs.
  assert (Hne : (target =? "") = false).
  { unfold needs_site_check in Hguard.
    apply andb_prop in Hguard as [Hne _]. now apply negb_true_iff in Hne. }
  unfold oidc_callback, state_or_root.
  rewrite Hne, Hguard, Hparse, (findOne_by_domain_absent _ _ Habs).
  now destruct req_user.
Qed.

Lemma unknown_site_redirects_to_root_example :
  oidc_callback url_parse_sample [blog] (Some ann_session)
                (Some "https://evil.example/x") =
    {| outcome := Redirect "/"; site_queries := [Some "evil.example"] |}.
Proof.
  refine (unknown_site_redirects_to_root url_parse_sample [blog]
            (Some ann_session) "https://evil.example/x"
            {| host := Some "evil.example" |} eq_refl eq_refl _).
  simpl. intros s [<- | []]. discriminate.
Defined.

(** C5, at its failing input. The protocol-relative target
    ["//blog.example/admin"] names the host of the stored Site
    [blog.example]; Bo is not among its editors; yet the handler
    redirects him to the target, not to the root path. The path for
    targets that do not begin with a slash checks the editors
    ([site_editors_decide] below); this one is let through by the test
    for a leading slash. *)
Theorem C5_protocol_relative_skips_editor_check :
  Spec.specifies_other_origin gateway_host "//blog.example/admin" = true
  /\ findOne_by_domain [blog] (Spec.named_host "//blog.example/admin")
     = Some blog
  /\ finds_editor blog (o_id bo_session) = false
  /\ outcome (oidc_callback url_parse_sample [blog] (Some bo_session)
                            (Some "//blog.example/admin"))
     = Redirect "//blog.example/admin"
  /\ Redirect "//blog.example/admin" <> Redirect "/".
Proof.
  repeat split. discriminate.
Qed.

(** The path the handler takes for an absolute URL. For every non-empty
    target that does not begin with a slash and that [url.parse] parses,
    when the Site table returns a Site for the parsed host: a user who is
    not in that Site's editor set is redirected to the root path, a user
    who is in it is redirected to the target unchanged. *)
Lemma site_editors_decide
    (url_parse : string -> Parse) (sites : list Site)
    (user : UserObject) (target : string) (parsedUrl : Url) (site : Site) :
  needs_site_check target = true ->
  url_parse target = Parsed parsedUrl ->
  findOne_by_domain sites (host parsedUrl) = Some site ->
  (~ is_editor_of site (o_id user) ->
     outcome (oidc_callback url_parse sites (Some user) (Some target))
     = Redirect "/")
  /\ (is_editor_of site (o_id user) ->
     outcome (oidc_callback url_parse sites (Some user) (Some target))
     = Redirect target).
Proof.
  intros Hguard Hparse Hsite.
  assert (Hne : (target =? "") = false).
  { unfold needs_site_check in Hguard.
    apply andb_prop in Hguard as [Hne _]. now apply negb_true_iff in Hne. }
  unfold oidc_callback, state_or_root.
  rewrite Hne, Hguard, Hparse, Hsite. simpl.
  pose proof (finds_editor_iff site (o_id user)) as Hiff.
  destruct (finds_editor site (o_id user)); simpl; split; intros H.
  - exfalso. apply H, Hiff. reflexivity.
  - reflexivity.
  - reflexivity.
  - apply Hiff in H. discriminate.
Qed.

Lemma site_editors_decide_example :
  outcome (oidc_callback url_parse_sample [blog] (Some bo_session)
                         (Some "https://blog.example/admin"))
  = Redirect "/"
  /\ outcome (oidc_callback url_parse_sample [blog] (Some ann_session)
                            (Some "https://blog.example/admin"))
     = Redirect "https://blog.example/admin".
Proof.
  split.
  - refine (proj1 (site_editors_decide url_parse_sample [blog]
                     bo_session "https://blog.example/admin"
                     {| host := Some "blog.example" |} blog
                     eq_refl eq_refl eq_refl) _).
    intros H. apply finds_editor_iff in H. discriminate.
  - refine (proj2 (site_editors_decide url_parse_sample [blog]
                     ann_session "https://blog.example/admin"
                     {| host := Some "blog.example" |} blog
                     eq_refl eq_refl eq_refl) _).
    apply finds_editor_iff. reflexivity.
Defined.

(** C9 as stated fails twice. The path-relative target ["dashboard"] is
    not returned unchanged: it has no host, no Site is found, and the
    handler redirects to the root path. And on
    ["http://%@evil.example/"] the parser throws, so the handler ends
    without a redirect. *)
Lemma C9_counterexample_relative_and_throwing :
  Spec.path_relative "dashboard" = true
  /\ outcome (oidc_callback url_parse_sample [blog] (Some ann_session)
                            (Some "dashboard"))
     = Redirect "/"
  /\ Redirect "/" <> Redirect "dashboard"
  /\ outcome (oidc_callback url_parse_sample [blog] (Some ann_session)
                            (Some "http://%@evil.example/"))
     = Raised.
Proof.
  repeat split. discriminate.
Qed.

(** C9, amended. For every state, absent or any string, on which
    [url.parse] does not throw when the handler calls it, the handler
    ends with a redirect; an absent or empty state gives the root path,
    and a state that begins with a slash is returned unchanged. *)
Theorem C9_redirects_when_parser_returns
    (url_parse : string -> Parse) (sites : list Site)
    (req_user : option UserObject) (state : option string) :
  (needs_site_check (state_or_root state) = true ->
   url_parse (state_or_root state) <> ThrowsURIError) ->
  exists location,
    outcome (oidc_callback url_parse sites req_user state)
    = Redirect location
    /\ (state = None \/ state = Some "" -> location = "/")
    /\ (forall s, state = Some s -> Js.startsWith s "/" = true ->
        location = s).
Proof.
  intros Hparse. unfold oidc_callback.
  destruct (needs_site_check (state_or_root state)) eqn:G.
  - destruct (url_parse (state_or_root state)) as [p|] eqn:P;
      [|now elim (Hparse eq_refl)].
    simpl. eexists. split; [reflexivity|]. split.
    + intros [-> | ->]; discriminate G.
    + intros s -> Hs. exfalso.
      unfold needs_site_check, state_or_root in G.
      destruct (s =? "") eqn:E.
      * discriminate G.
      * simpl in G. rewrite E, Hs in G. discriminate G.
  - simpl. eexists. split; [reflexivity|]. split.
    + now intros [-> | ->].
    + intros s -> Hs. unfold state_or_root.
      destruct (s =? "") eqn:E; [|reflexivity].
      apply String.eqb_eq in E. subst s. discriminate Hs.
Qed.

Lemma C9_redirects_when_parser_returns_witness :
  exists location,
    outcome (oidc_callback url_parse_sample [blog] (Some bo_session)
                           (Some "https://blog.example/admin"))
    = Redirect location.
Proof.
  destruct (C9_redirects_when_parser_returns url_parse_sample [blog]
              (Some bo_session) (Some "https://blog.example/admin"))
    as (location & H & _).
  - intros _. discriminate.
  - exists location. exact H.
Defined.


(** ** Further properties of the verifier and of its write *)

Section VerifierRuns.

Variable adminSub : option string.
Variable profile : UserinfoResponse.

(** With [select: ['id']] the loaded entity adds nothing to the object
    the verifier builds. *)
Lemma synthesize_select_id (users : list User) :
  synthesize adminSub profile
    (findOne_by_email users (p_email profile) [ColId])
  = synthesize adminSub profile None.
Proof.
  unfold findOne_by_email.
  now destruct (find (fun u => email u =? p_email profile) users).
Qed.

(** The shape of a run that passed both checks. *)
Lemma verifier_accepts (users : list User) :
  Js.truthy (Js.of_bool (email_verified profile)) = true ->
  other_identity (findOne_by_email users (p_email profile) [ColId]) profile
  = false ->
  verifier adminSub profile users =
    {| done := DoneUser (synthesize adminSub profile None);
       started_save := Some (synthesize adminSub profile None) |}.
Proof.
  intros Hv Ho. unfold verifier.
  now rewrite Hv, Ho, synthesize_select_id.
Qed.

Lemma verifier_started (users : list User) (u : UserObject) :
  started_save (verifier adminSub profile users) = Some u ->
  Js.truthy (Js.of_bool (email_verified profile)) = true
  /\ other_identity (findOne_by_email users (p_email profile) [ColId])
                    profile = false
  /\ u = synthesize adminSub profile None.
Proof.
  unfold verifier.
  destruct (Js.truthy (Js.of_bool (email_verified profile)));
    simpl; [|discriminate].
  destruct (other_identity _ profile); simpl; [discriminate|].
  intros [= <-]. now rewrite synthesize_select_id.
Qed.


(** X4. The verifier answers EmailNotVerified exactly when the
    email-verified flag of the claims is not [true]: when it is [false]
    and when the claims do not carry it. *)
Theorem verifier_unverified_iff (users : list User) :
  done (verifier adminSub profile users) = DoneError EmailNotVerified
  <-> email_verified profile <> Some true.
Proof.
  unfold verifier.
  destruct (email_verified profile) as [[|]|]; simpl.
  - destruct (other_identity _ profile); simpl;
      (split; [discriminate | intros H; now elim H]).
  - split; [discriminate | reflexivity].
  - split; [discriminate | reflexivity].
Qed.

(** X3. A successful login yields a truthy administrator flag exactly
    when the subject of the claims is the configured [adminSub] and that
    subject is not the empty string; the table plays no part. *)
Theorem verifier_admin_iff_bootstrap
    (users : list User) (user : UserObject) :
  done (verifier adminSub profile users) = DoneUser user ->
  (Js.truthy (o_isAdmin user) = true
   <-> adminSub = Some (sub profile) /\ sub profile <> "").
Proof.
  intros Hd.
  rewrite (verifier_isAdmin_ignores_table adminSub profile users user Hd).
  unfold bootstrap_match, Js.and.
  destruct adminSub as [a|]; simpl.
  - destruct (a =? "") eqn:Ea; simpl.
    + apply String.eqb_eq in Ea. subst a. simpl.
      split; [discriminate|]. intros [[= E] Hne]. now elim Hne.
    + apply String.eqb_neq in Ea.
      destruct (sub profile =? a) eqn:Es.
      * apply String.eqb_eq in Es. subst a. now split.
      * apply String.eqb_neq in Es. split; [discriminate|].
        intros [[= E] _]. now elim Es.
  - split; [discriminate|]. now intros [? _].
Qed.

End VerifierRuns.

Lemma verifier_admin_iff_bootstrap_witness :
  Js.truthy
    (o_isAdmin {| o_id := "abc123"; o_name := "Root"; o_email := "a@x.com";
                  o_profileImage := ""; o_isAdmin := Js.Boolean true |})
  = true
  <-> Some "abc123" = Some (sub abc123_claims) /\ sub abc123_claims <> "".
Proof.
  exact (verifier_admin_iff_bootstrap (Some "abc123") abc123_claims []
           _ eq_refl).
Defined.

Section SequentialWrite.

Variable adminSub : option string.
Variable profile : UserinfoResponse.


(** X1. On a table with one user per email, the write started by the
    verifier is accepted by the store: the conflict test of the verifier
    rules out every violation of the email constraint. *)
Theorem verifier_save_accepted (users : list User) (u : UserObject) :
  emails_unique users ->
  started_save (verifier adminSub profile users) = Some u ->
  exists later, save users u = inl later.
Proof.
  intros Huniq Hs.
  destruct (verifier_started adminSub profile users u Hs) as (_ & Ho & ->).
  unfold save.
  destruct (violates_unique_email users (synthesize adminSub profile None))
    eqn:V.
  - exfalso. unfold violates_unique_email in V.
    apply existsb_exists in V as (r & Hin & Hr). simpl in Hr.
    apply andb_prop in Hr as [He Hi]. apply String.eqb_eq in He.
    unfold findOne_by_email in Ho.
    rewrite <- He, (find_unique_email users r Huniq Hin) in Ho.
    simpl in Ho. rewrite Hi in Ho. discriminate.
  - destruct (findOne_by_id users _); eexists; reflexivity.
Qed.

End SequentialWrite.

Lemma verifier_save_accepted_witness :
  exists later, save [ann] (synthesize None ann_claims None) = inl later.
Proof.
  refine (verifier_save_accepted None ann_claims [ann] _ _ eq_refl).
  unfold emails_unique. simpl. constructor; [|constructor].
  simpl. tauto.
Defined.

(** ** What a successful write leaves in the table *)

Section WriteFacts.

Variable u : UserObject.

Lemma column_of_value_twice (v : Js.Value) (b : bool) :
  column_of_value v (column_of_value v b) = column_of_value v b.
Proof.
  now destruct v.
Qed.

Lemma merge_twice (r : User) : merge (merge r u) u = merge r u.
Proof.
  unfold merge. simpl. now rewrite column_of_value_twice.
Qed.

Lemma merge_fresh : merge (fresh_row u) u = fresh_row u.
Proof.
  unfold merge, fresh_row. simpl. now rewrite column_of_value_twice.
Qed.

Lemma update_absent (l : list User) :
  find (fun r => id r =? o_id u) l = None ->
  map (fun r => if id r =? o_id u then merge r u else r) l = l.
Proof.
  induction l as [|a l IH]; simpl; [reflexivity|].
  destruct (id a =? o_id u); [discriminate|].
  intros F. now rewrite IH.
Qed.

Lemma update_twice (l : list User) :
  map (fun r => if id r =? o_id u then merge r u else r)
      (map (fun r => if id r =? o_id u then merge r u else r) l)
  = map (fun r => if id r =? o_id u then merge r u else r) l.
Proof.
  rewrite map_map. apply map_ext. intros r.
  destruct (id r =? o_id u) eqn:E; simpl; rewrite E; [|reflexivity].
  apply merge_twice.
Qed.

(** A row of the table after the write is a row from before, or carries
    the written identifier. *)
Lemma saved_rows (users later : list User) (r : User) :
  save users u = inl later -> In r later ->
  id r = o_id u \/ In r users.
Proof.
  unfold save. destruct (violates_unique_email users u); [discriminate|].
  destruct (findOne_by_id users (o_id u)); intros [= <-] Hin.
  - apply in_map_iff in Hin as (r0 & <- & Hin0).
    destruct (id r0 =? o_id u) eqn:E; [|now right].
    left. simpl. now apply String.eqb_eq.
  - apply in_app_or in Hin as [Hin | [<- | []]]; [now right|now left].
Qed.

Lemma kept_rows (users later : list User) (r : User) :
  save users u = inl later -> In r users -> id r <> o_id u ->
  In r later.
Proof.
  unfold save. destruct (violates_unique_email users u); [discriminate|].
  destruct (findOne_by_id users (o_id u)); intros [= <-] Hin Hid.
  - apply in_map_iff. exists r. split; [|exact Hin].
    apply String.eqb_neq in Hid. now rewrite Hid.
  - apply in_or_app. now left.
Qed.

Lemma save_accepted_no_violation (users later : list User) :
  save users u = inl later -> violates_unique_email users u = false.
Proof.
  unfold save. now destruct (violates_unique_email users u).
Qed.

Lemma no_violation_iff (users : list User) :
  violates_unique_email users u = false
  <-> forall r, In r users -> email r = o_email u -> id r = o_id u.
Proof.
  unfold violates_unique_email. split.
  - intros V r Hin He.
    destruct (id r =? o_id u) eqn:E; [now apply String.eqb_eq|].
    assert (X : existsb (fun r => (email r =? o_email u)
                                  && negb (id r =? o_id u)) users = true).
    { apply existsb_exists. exists r. split; [exact Hin|].
      rewrite E. apply String.eqb_eq in He. now rewrite He. }
    rewrite X in V. discriminate.
  - intros H.
    destruct (existsb _ users) eqn:X; [|reflexivity].
    apply existsb_exists in X as (r & Hin & Hr).
    apply andb_prop in Hr as [He Hi]. apply String.eqb_eq in He.
    rewrite (H r Hin He), String.eqb_refl in Hi. discriminate.
Qed.

Lemma save_keeps_no_violation (users later : list User) :
  save users u = inl later -> violates_unique_email later u = false.
Proof.
  intros Hs. apply no_violation_iff. intros r Hin He.
  destruct (saved_rows users later r Hs Hin) as [E | Hin0]; [exact E|].
  apply save_accepted_no_violation in Hs.
  now apply (proj1 (no_violation_iff users) Hs).
Qed.

(** Writing the same object again changes nothing. *)
Lemma save_again (users later : list User) :
  save users u = inl later -> save later u = inl later.
Proof.
  intros Hs. pose proof (save_keeps_no_violation users later Hs) as V.
  destruct (save_then_find u users later Hs) as (row & F & _).
  unfold save. rewrite V, F. f_equal.
  revert Hs. unfold save, findOne_by_id.
  destruct (violates_unique_email users u); [discriminate|].
  destruct (find (fun r => id r =? o_id u) users) eqn:F0; intros [= <-].
  - apply update_twice.
  - rewrite map_app, (update_absent users F0). simpl.
    now rewrite String.eqb_refl, merge_fresh.
Qed.

Lemma save_length (users later : list User) :
  save users u = inl later ->
  match findOne_by_id users (o_id u) with
  | Some _ => length later = length users
  | None => length later = S (length users)
  end.
Proof.
  unfold save. destruct (violates_unique_email users u); [discriminate|].
  destruct (findOne_by_id users (o_id u)); intros [= <-].
  - apply length_map.
  - rewrite length_app. simpl. apply Nat.add_1_r.
Qed.

End WriteFacts.

Section WriteInvariants.

Variable u : UserObject.





End WriteInvariants.



(** ** One login, start to end *)

Section Login.

Variable adminSub : option string.
Variable profile : UserinfoResponse.

(** The table after one login is the table before, or the result of the
    accepted write of the object handed to [done]. *)
Lemma reconcile_cases (users : list User) :
  snd (reconcile adminSub profile users) = users
  \/ exists later,
       save users (synthesize adminSub profile None) = inl later
       /\ verifier adminSub profile users =
            {| done := DoneUser (synthesize adminSub profile None);
               started_save := Some (synthesize adminSub profile None) |}
       /\ snd (reconcile adminSub profile users) = later.
Proof.
  unfold reconcile, settle. simpl.
  destruct (started_save (verifier adminSub profile users)) as [u|] eqn:S;
    [|now left].
  destruct (verifier_started adminSub profile users u S) as (Hv & Ho & ->).
  destruct (save users (synthesize adminSub profile None))
    as [later|] eqn:Hs; [|now left].
  right. exists later. repeat split.
  now apply verifier_accepts.
Qed.

(** X2. Logging in again with the same claims changes nothing: the second
    run of the verifier hands the same value to [done] and leaves the
    table exactly as the first run left it (the row is updated in place,
    not duplicated). This holds for every table and every claims value,
    accepted or rejected. *)
Theorem reconcile_idempotent (users : list User) :
  reconcile adminSub profile (snd (reconcile adminSub profile users))
  = reconcile adminSub profile users.
Proof.
  destruct (reconcile_cases users) as [E | (later & Hs & Hr & E)].
  - rewrite E. reflexivity.
  - rewrite E.
    assert (Hv : Js.truthy (Js.of_bool (email_verified profile)) = true).
    { now destruct (verifier_started adminSub profile users _
                      (f_equal started_save Hr)). }
    assert (Ho : other_identity
                   (findOne_by_email later (p_email profile) [ColId])
                   profile = false).
    { unfold findOne_by_email.
      destruct (find (fun r => email r =? p_email profile) later)
        as [r|] eqn:F; [|reflexivity].
      apply find_some in F as [Hin He]. apply String.eqb_eq in He.
      pose proof (proj1 (no_violation_iff _ later)
                    (save_keeps_no_violation _ users later Hs) r Hin He)
        as Hid.
      simpl in *. now rewrite Hid, String.eqb_refl. }
    pose proof (verifier_accepts adminSub profile later Hv Ho) as Hr'.
    unfold reconcile, settle. rewrite Hr', Hr. simpl.
    now rewrite (save_again _ users later Hs), Hs.
Qed.

(** X6. A login touches the row of its own subject only: every row with
    another identifier is in the table afterwards exactly when it was
    there before, and the table grows by at most one row, and only when
    the subject was not stored. *)
Theorem reconcile_keeps_other_rows (users : list User) :
  (forall r, id r <> sub profile ->
     (In r (snd (reconcile adminSub profile users)) <-> In r users))
  /\ (length (snd (reconcile adminSub profile users)) = length users
      \/ (findOne_by_id users (sub profile) = None
          /\ length (snd (reconcile adminSub profile users))
             = S (length users))).
Proof.
  destruct (reconcile_cases users) as [E | (later & Hs & _ & E)];
    rewrite E.
  - split; [tauto | now left].
  - split.
    + intros r Hid. split; intros Hin.
      * destruct (saved_rows _ users later r Hs Hin) as [X | X];
          [now elim Hid | exact X].
      * now apply (kept_rows _ users later r Hs).
    + pose proof (save_length _ users later Hs) as L. simpl in L.
      destruct (findOne_by_id users (sub profile)); [now left|now right].
Qed.



End Login.



Lemma reconcile_keeps_other_rows_witness :
  (In ann (snd (reconcile None cy_claims [ann])) <-> In ann [ann])
  /\ length (snd (reconcile None cy_claims [ann])) = 2.
Proof.
  destruct (reconcile_keeps_other_rows None cy_claims [ann]) as (K & L).
  split.
  - apply K. simpl. discriminate.
  - destruct L as [L | [_ L]]; [discriminate L | exact L].
Defined.

(** ** A gateway started without an administrator subject *)

Section NoAdminSub.

Variable cli : Cli.CommandLine.
Hypothesis no_adminSub : Cli.given_adminSub cli = None.
Variable profile : UserinfoResponse.

Lemma verifier_of_no_adminSub :
  Config.verifier_of cli = verifier None.
Proof.
  unfold Config.verifier_of. simpl. now rewrite no_adminSub.
Qed.

(** X10. When the command line names no [adminSub], a login never hands
    an administrator to [done], and it never changes the stored
    administrator flag of its subject: the object it saves leaves
    [isAdmin] undefined, which the update skips. *)
Theorem no_adminSub_keeps_admin_flags (users : list User) :
  (forall user,
     done (Config.verifier_of cli profile users) = DoneUser user ->
     Js.truthy (o_isAdmin user) = false)
  /\ (forall row,
        findOne_by_id users (sub profile) = Some row ->
        option_map isAdmin
          (findOne_by_id
             (settle (Config.verifier_of cli profile users) users)
             (sub profile))
        = Some (isAdmin row)).
Proof.
  rewrite verifier_of_no_adminSub. split.
  - intros user Hd.
    now rewrite (verifier_isAdmin_ignores_table None profile users user Hd).
  - intros row F.
    destruct (reconcile_cases None profile users)
      as [E | (later & Hs & _ & E)];
      unfold reconcile in E; simpl in E; rewrite E.
    + now rewrite F.
    + change (sub profile) with (o_id (synthesize None profile None))
        in F |- *.
      revert Hs. unfold save.
      destruct (violates_unique_email users _); [discriminate|].
      rewrite F. intros [= <-].
      unfold findOne_by_id in *.
      now rewrite find_after_update, F.
Qed.

End NoAdminSub.

Lemma no_adminSub_keeps_admin_flags_witness :
  option_map isAdmin
    (findOne_by_id
       (settle (Config.verifier_of (Config.bare "https://idp.example")
                                   ann_claims [ann]) [ann])
       (sub ann_claims))
  = Some true.
Proof.
  exact (proj2 (no_adminSub_keeps_admin_flags
                  (Config.bare "https://idp.example") eq_refl
                  ann_claims [ann]) ann eq_refl).
Defined.

(** ** The callback handler, read backwards *)

(** X8. Whatever the state, the user and the tables, the handler redirects
    to the root path or to the state itself; and it redirects to a state
    that does not begin with a slash only when that state was parsed, a
    stored Site has the parsed host as its domain, and the user of the
    request is one of the editors of that Site. *)
Theorem callback_leaves_gateway_only_for_editors
    (url_parse : string -> Parse) (sites : list Site)
    (req_user : option UserObject) (state : option string)
    (location : string) :
  outcome (oidc_callback url_parse sites req_user state)
  = Redirect location ->
  location <> "/" ->
  state = Some location
  /\ (Js.startsWith location "/" = true
      \/ exists user parsedUrl site,
           req_user = Some user
           /\ url_parse location = Parsed parsedUrl
           /\ In site sites
           /\ host parsedUrl = Some (domain site)
           /\ is_editor_of site (o_id user)).
Proof.
  unfold oidc_callback.
  assert (S : state_or_root state <> "/" -> state
              = Some (state_or_root state)).
  { unfold state_or_root. destruct state as [s|]; [|now intros H].
    destruct (s =? ""); [now intros H | reflexivity]. }
  destruct (needs_site_check (state_or_root state)) eqn:G.
  - destruct (url_parse (state_or_root state)) as [p|] eqn:P;
      simpl; [|discriminate].
    destruct req_user as [user|]; [|intros [= <-] H; now elim H].
    destruct (findOne_by_domain sites (host p)) as [site|] eqn:F;
      [|intros [= <-] H; now elim H].
    destruct (finds_editor site (o_id user)) eqn:E; simpl;
      [|intros [= <-] H; now elim H].
    intros [= <-] Hroot. split; [now apply S|].
    right. exists user, p, site.
    apply findOne_by_domain_sound in F as [Hin Hh].
    apply finds_editor_iff in E. now repeat split.
  - simpl. intros [= <-] Hroot. split; [now apply S|].
    left. unfold needs_site_check in G.
    apply andb_false_iff in G as [G | G]; apply negb_false_iff in G.
    + apply String.eqb_eq in G. unfold state_or_root in *.
      destruct state as [s|]; [|now elim Hroot].
      destruct (s =? "") eqn:X; [now elim Hroot|].
      apply String.eqb_neq in X. now elim X.
    + exact G.
Qed.

Lemma callback_leaves_gateway_only_for_editors_witness :
  Some "https://blog.example/admin" = Some "https://blog.example/admin"
  /\ (Js.startsWith "https://blog.example/admin" "/" = true
      \/ exists user parsedUrl site,
           Some ann_session = Some user
           /\ url_parse_sample "https://blog.example/admin"
              = Parsed parsedUrl
           /\ In site [blog]
           /\ host parsedUrl = Some (domain site)
           /\ is_editor_of site (o_id user)).
Proof.
  refine (callback_leaves_gateway_only_for_editors url_parse_sample [blog]
            (Some ann_session) (Some "https://blog.example/admin")
            "https://blog.example/admin" eq_refl _).
  discriminate.
Defined.

(** ** From the command line to the provider client *)

Section CommandLine.

Variable cli : Cli.CommandLine.

(** X11. The hosting URL that [getArguments] returns is never the bare
    ["http://localhost"]: left out, or given as exactly that string, it
    gets the port appended; any other given value is returned as it is. *)
Theorem getArguments_hostingUrl :
  Cli.hostingUrl (Cli.getArguments cli) <> Cli.defaultLocalhostUrl
  /\ (forall h, Cli.given_hostingUrl cli = Some h ->
        h <> Cli.defaultLocalhostUrl ->
        Cli.hostingUrl (Cli.getArguments cli) = h)
  /\ (Cli.given_hostingUrl cli = None
      \/ Cli.given_hostingUrl cli = Some Cli.defaultLocalhostUrl ->
      Cli.hostingUrl (Cli.getArguments cli) =
        "http://localhost:"
        ++ Cli.number_to_string (Cli.port (Cli.getArguments cli))).
Proof.
  unfold Cli.getArguments. simpl. repeat split.
  - destruct (Cli.or_default Cli.defaultLocalhostUrl
                (Cli.given_hostingUrl cli) =? Cli.defaultLocalhostUrl)
      eqn:E.
    + apply String.eqb_eq in E. rewrite E. simpl. discriminate.
    + now apply String.eqb_neq.
  - intros h -> Hne. simpl. apply String.eqb_neq in Hne.
    now rewrite Hne.
  - now intros [-> | ->].
Qed.

(** X12. The redirect URI sent in the authorization request is the one
    redirect URI registered with the client, and it is the hosting URL
    followed by ["/oidc-callback"]; when the command line gives no
    hosting URL it carries the listening port. *)
Theorem callback_url_registered :
  Config.redirect_uris (Config.client_metadata (Config.options_of cli))
  = [Config.redirect_uri (Config.strategyOptions (Config.options_of cli))]
  /\ Config.redirect_uri (Config.strategyOptions (Config.options_of cli))
     = Cli.hostingUrl (Cli.getArguments cli) ++ "/oidc-callback"
  /\ (Cli.given_hostingUrl cli = None ->
      Config.redirect_uri (Config.strategyOptions (Config.options_of cli))
      = "http://localhost:"
        ++ Cli.number_to_string (Cli.or_default 3000 (Cli.given_port cli))
        ++ "/oidc-callback").
Proof.
  repeat split. intros E. simpl. now rewrite E.
Qed.

(** X13. The client authenticates at the token endpoint with
    [client_secret_basic] exactly when the command line gives a non-empty
    client secret, and with [none] otherwise. The hosting URL is
    registered as the one post-logout redirect URI, unless it was given
    as the empty string: then none is registered. *)
Theorem client_metadata_of_command_line :
  (Config.token_endpoint_auth_method
     (Config.client_metadata (Config.options_of cli))
   = "client_secret_basic"
   <-> exists secret,
         Cli.given_authClientSecret cli = Some secret /\ secret <> "")
  /\ (Config.token_endpoint_auth_method
        (Config.client_metadata (Config.options_of cli)) = "none"
      <-> Cli.given_authClientSecret cli = None
          \/ Cli.given_authClientSecret cli = Some "")
  /\ (Cli.given_hostingUrl cli = Some "" ->
      Config.post_logout_redirect_uris
        (Config.client_metadata (Config.options_of cli)) = None)
  /\ (Cli.given_hostingUrl cli <> Some "" ->
      Config.post_logout_redirect_uris
        (Config.client_metadata (Config.options_of cli))
      = Some [Cli.hostingUrl (Cli.getArguments cli)]).
Proof.
  simpl. unfold Config.given. simpl. repeat split.
  - destruct (Cli.given_authClientSecret cli) as [s|]; simpl;
      [|discriminate].
    destruct (s =? "") eqn:E; simpl; [discriminate|].
    intros _. exists s. split; [reflexivity|now apply String.eqb_neq].
  - intros (s & -> & Hne). simpl. apply String.eqb_neq in Hne.
    now rewrite Hne.
  - destruct (Cli.given_authClientSecret cli) as [s|]; simpl;
      [|now left].
    destruct (s =? "") eqn:E; simpl; [|discriminate].
    apply String.eqb_eq in E. subst s. now right.
  - now intros [-> | ->].
  - now intros ->.
  - intros Hne.
    destruct (Cli.given_hostingUrl cli) as [h|]; simpl; [|reflexivity].
    destruct (h =? Cli.defaultLocalhostUrl) eqn:E.
    + apply String.eqb_eq in E. subst h. reflexivity.
    + destruct (h =? "") eqn:X; [|reflexivity].
      apply String.eqb_eq in X. subst h. now elim Hne.
Qed.

(** X14. The database that [Main] opens is the one named on the command
    line, whatever the name, the empty one included; without a name it is
    ["db.sqlite"] when the database type is left out or is [sqlite], and
    ["git-gateway"] for the two other types. *)
Theorem Main_database :
  (forall d, Cli.given_dbDatabase cli = Some d ->
     Config.database (Cli.getArguments cli) = d)
  /\ (Cli.given_dbDatabase cli = None ->
      (Config.database (Cli.getArguments cli) = "db.sqlite"
       <-> Cli.given_dbType cli = None
           \/ Cli.given_dbType cli = Some Cli.sqlite)
      /\ (Config.database (Cli.getArguments cli) = "git-gateway"
          <-> Cli.given_dbType cli = Some Cli.mysql
              \/ Cli.given_dbType cli = Some Cli.postgres)).
Proof.
  unfold Config.database. simpl. split.
  - now intros d ->.
  - intros ->. destruct (Cli.given_dbType cli) as [[| |]|]; simpl;
      (split;
       (split;
        [ try discriminate; intros _; (now left) || (now right)
        | intros [H | H]; (discriminate H || reflexivity) ])).
Qed.

End CommandLine.

Lemma callback_url_registered_witness :
  Config.redirect_uri
    (Config.strategyOptions
       (Config.options_of (Config.bare "https://idp.example")))
  = "http://localhost:3000/oidc-callback".
Proof.
  exact (proj2 (proj2 (callback_url_registered
                         (Config.bare "https://idp.example"))) eq_refl).
Defined.

Lemma getArguments_hostingUrl_witness :
  Cli.hostingUrl (Cli.getArguments (Config.bare "https://idp.example"))
  = "http://localhost:3000".
Proof.
  exact (proj2 (proj2 (getArguments_hostingUrl
                         (Config.bare "https://idp.example")))
               (or_introl eq_refl)).
Defined.

Lemma client_metadata_of_command_line_witness :
  Config.post_logout_redirect_uris
    (Config.client_metadata
       (Config.options_of (Config.bare "https://idp.example")))
  = Some ["http://localhost:3000"].
Proof.
  refine (proj2 (proj2 (proj2 (client_metadata_of_command_line
                                 (Config.bare "https://idp.example")))) _).
  simpl. discriminate.
Defined.

Lemma Main_database_witness :
  Config.database (Cli.getArguments (Config.bare "https://idp.example"))
  = "db.sqlite".
Proof.
  apply (proj2 (Main_database (Config.bare "https://idp.example"))
               eq_refl).
  now left.
Defined.
